(** * Column detection, normalisation and aggregation of the patient-influx app

    Shallow embedding of [src/app.py]: [detect_columns], the value steps of
    [preprocess_data] and the department aggregation feeding the charts. *)

From Stdlib Require Import ZArith Strings.String Strings.Ascii List Bool Lia
  Sorted Permutation Numbers.DecimalString.
Import ListNotations.
Open Scope string_scope.

(** ** Python string primitives on ASCII text *)

Module Py.

(** [str.lower] / [str.upper] on ASCII letters. *)
Definition lower_char (c : ascii) : ascii :=
  let n := nat_of_ascii c in
  if (65 <=? n)%nat && (n <=? 90)%nat then ascii_of_nat (n + 32) else c.

Definition upper_char (c : ascii) : ascii :=
  let n := nat_of_ascii c in
  if (97 <=? n)%nat && (n <=? 122)%nat then ascii_of_nat (n - 32) else c.

Fixpoint map_chars (f : ascii -> ascii) (s : string) : string :=
  match s with
  | EmptyString => EmptyString
  | String c s' => String (f c) (map_chars f s')
  end.

Definition lower (s : string) : string := map_chars lower_char s.
Definition upper (s : string) : string := map_chars upper_char s.

(** [s.startswith(p)] *)
Fixpoint startswith (s p : string) : bool :=
  match p, s with
  | EmptyString, _ => true
  | String a p', String b s' => Ascii.eqb a b && startswith s' p'
  | String _ _, EmptyString => false
  end.

(** [p in s] for strings: substring test. *)
Fixpoint contains (p s : string) : bool :=
  startswith s p ||
  match s with
  | EmptyString => false
  | String _ s' => contains p s'
  end.

(** [s.replace(old, new)] for a one-character [old] and [new]. *)
Definition replace_char (old new : ascii) (s : string) : string :=
  map_chars (fun c => if Ascii.eqb c old then new else c) s.

(** [s.replace(c, '')]: deletes every occurrence of [c]. *)
Fixpoint remove_char (c : ascii) (s : string) : string :=
  match s with
  | EmptyString => EmptyString
  | String d s' => if Ascii.eqb d c then remove_char c s' else String d (remove_char c s')
  end.

(** [s.replace(old, new)] for a non-empty [old]: left to right, non
    overlapping; [skip] counts the characters of a match still to be dropped. *)
Fixpoint replace_aux (old new : string) (skip : nat) (s : string) : string :=
  match s with
  | EmptyString => EmptyString
  | String c s' =>
      match skip with
      | S k => replace_aux old new k s'
      | O => if startswith s old
             then new ++ replace_aux old new (String.length old - 1) s'
             else String c (replace_aux old new 0 s')
      end
  end.

Definition replace (old new s : string) : string := replace_aux old new 0 s.

(** [str.isspace] on ASCII: tab, line feed, vertical tab, form feed, carriage
    return, the four separators 0x1c..0x1f, and space. *)
Definition is_space (c : ascii) : bool :=
  let n := nat_of_ascii c in
  ((9 <=? n)%nat && (n <=? 13)%nat) || ((28 <=? n)%nat && (n <=? 32)%nat).

Fixpoint lstrip (s : string) : string :=
  match s with
  | EmptyString => EmptyString
  | String c s' => if is_space c then lstrip s' else s
  end.

Fixpoint rev_string (s : string) : string :=
  match s with
  | EmptyString => EmptyString
  | String c s' => rev_string s' ++ String c EmptyString
  end.

(** [str.strip()] *)
Definition strip (s : string) : string := rev_string (lstrip (rev_string (lstrip s))).

Definition is_digit (c : ascii) : bool :=
  let n := nat_of_ascii c in (48 <=? n)%nat && (n <=? 57)%nat.

(** [str.isdigit]: non-empty and all digits. *)
Definition isdigit (s : string) : bool :=
  match s with
  | EmptyString => false
  | _ => forallb is_digit (list_ascii_of_string s)
  end.

(** [str(n)] for a Python int. *)
Definition str_of_int (z : Z) : string := NilEmpty.string_of_int (Z.to_int z).

(** Python's [<] on strings: code-point lexicographic order. *)
Fixpoint str_ltb (a b : string) : bool :=
  match a, b with
  | _, EmptyString => false
  | EmptyString, String _ _ => true
  | String x a', String y b' =>
      (nat_of_ascii x <? nat_of_ascii y)%nat
      || (Ascii.eqb x y && str_ltb a' b')
  end.

End Py.

(** ** Column matcher: [detect_columns] *)

Module Detect.

Inductive field := Year | Quarter | Department | Patients.

Definition field_eqb (a b : field) : bool :=
  match a, b with
  | Year, Year | Quarter, Quarter | Department, Department
  | Patients, Patients => true
  | _, _ => false
  end.

(** The [patterns] dict, in its insertion order. *)
Definition patterns : list (field * list string) :=
  [ (Year, ["year"; "yr"; "years"; "date_year"; "time_year"]);
    (Quarter, ["quarter"; "qtr"; "q"; "quarters"; "period"]);
    (Department, ["department"; "dept"; "dep"; "ward"; "unit"; "division";
                  "section"]);
    (Patients, ["patients"; "patient"; "count"; "number"; "total";
                "num_patients"; "patient_count"; "no_of_patients";
                "patient_total"]) ].

(** [col.lower().replace(' ', '_').replace('.', '_').replace('-', '_')] *)
Definition clean (col : string) : string :=
  Py.replace_char "-" "_" (Py.replace_char "." "_"
    (Py.replace_char " " "_" (Py.lower col))).

(** [any(term in col_clean for term in search_terms)] *)
Definition col_matches (search_terms : list string) (col : string) : bool :=
  existsb (fun term => Py.contains term (clean col)) search_terms.

(** The inner [for col in df.columns: ... break]. *)
Fixpoint scan (search_terms : list string) (cols : list string) : option string :=
  match cols with
  | [] => None
  | col :: cols' => if col_matches search_terms col then Some col
                    else scan search_terms cols'
  end.

(** A dict with insertion order, as an association list. *)
Definition column_map := list (field * string).

Fixpoint dict_set (k : field) (v : string) (m : column_map) : column_map :=
  match m with
  | [] => [(k, v)]
  | (k', v') :: m' => if field_eqb k k' then (k, v) :: m' else (k', v') :: dict_set k v m'
  end.

Fixpoint dict_get (k : field) (m : column_map) : option string :=
  match m with
  | [] => None
  | (k', v) :: m' => if field_eqb k k' then Some v else dict_get k m'
  end.

Definition detect_columns (cols : list string) : column_map :=
  fold_left (fun column_map '(target_col, search_terms) =>
               match scan search_terms cols with
               | Some col => dict_set target_col col column_map
               | None => column_map
               end) patterns [].

(** The matcher as the spec words it: for a field, the first raw column (in
    column order) whose normalised name contains one of the field's tokens. *)
Definition terms_of (f : field) : list string :=
  match f with
  | Year => ["year"; "yr"; "years"; "date_year"; "time_year"]
  | Quarter => ["quarter"; "qtr"; "q"; "quarters"; "period"]
  | Department => ["department"; "dept"; "dep"; "ward"; "unit"; "division"; "section"]
  | Patients => ["patients"; "patient"; "count"; "number"; "total";
                 "num_patients"; "patient_count"; "no_of_patients"; "patient_total"]
  end.

Definition spec_first_match (f : field) (cols : list string) : option string :=
  find (fun col => existsb (fun t => Py.contains t (clean col)) (terms_of f)) cols.

Definition all_fields : list field := [Year; Quarter; Department; Patients].

End Detect.
Import Detect.

(** ** Value normaliser: the steps of [preprocess_data] after the rename

    A row holds the four mapped columns.  The model covers tables whose four
    mapped columns are distinct raw columns and where no other raw column is
    already labelled with a target name, so that [df.rename] yields exactly one
    column per logical field.  Cells are what [pd.read_csv] produces:
    integers, missing values, or text; integer cells are taken to have fewer
    than 16 digits, where float64 holds them exactly.  [pd.to_numeric] is
    modelled on integer literals (an optional sign followed by digits). *)

Module Norm.

Inductive cell := CInt (z : Z) | CNaN | CStr (s : string).

(** The dtype [read_csv] gives a column: [object] when a cell is text,
    [float64] when a numeric column has a missing value, else [int64]. *)
Inductive dtype := Object | Float64 | Int64.

Definition is_str (c : cell) : bool := match c with CStr _ => true | _ => false end.
Definition is_nan (c : cell) : bool := match c with CNaN => true | _ => false end.

Definition dtype_of (col : list cell) : dtype :=
  if existsb is_str col then Object
  else if existsb is_nan col then Float64 else Int64.

(** [Series.astype(str)] on one cell of a column of dtype [dt]. *)
Definition astype_str (dt : dtype) (c : cell) : string :=
  match c with
  | CStr s => s
  | CNaN => "nan"
  | CInt z => match dt with
              | Float64 => Py.str_of_int z ++ ".0"
              | _ => Py.str_of_int z
              end
  end.

Record frow (Y Q D C : Type) := mkrow
  { f_year : Y; f_quarter : Q; f_dept : D; f_count : C }.
Arguments mkrow {Y Q D C}.
Arguments f_year {Y Q D C}.
Arguments f_quarter {Y Q D C}.
Arguments f_dept {Y Q D C}.
Arguments f_count {Y Q D C}.

Definition raw_row := frow cell cell cell cell.

(** The categorical [valid_quarters = ['Q1', 'Q2', 'Q3', 'Q4']], ordered. *)
Inductive quarter := Q1 | Q2 | Q3 | Q4.

Definition quarter_index (q : quarter) : nat :=
  match q with Q1 => 0 | Q2 => 1 | Q3 => 2 | Q4 => 3 end%nat.

Definition quarter_label (q : quarter) : string :=
  match q with Q1 => "Q1" | Q2 => "Q2" | Q3 => "Q3" | Q4 => "Q4" end.

Definition valid_quarters : list quarter := [Q1; Q2; Q3; Q4].

(** [isin(valid_quarters)] followed by [pd.Categorical]. *)
Definition quarter_of_string (s : string) : option quarter :=
  find (fun q => String.eqb (quarter_label q) s) valid_quarters.

Definition nrow := frow string quarter string Z.

(** [pd.to_numeric(s, errors='coerce')] on integer literals. *)
Fixpoint digits_value (acc : Z) (s : string) : option Z :=
  match s with
  | EmptyString => Some acc
  | String c s' =>
      if Py.is_digit c
      then digits_value (acc * 10 + Z.of_nat (nat_of_ascii c - 48)) s'
      else None
  end.

Definition unsigned (s : string) : option Z :=
  match s with
  | EmptyString => None
  | _ => digits_value 0 s
  end.

Definition to_numeric (s : string) : option Z :=
  match s with
  | String "-" s' => option_map Z.opp (unsigned s')
  | String "+" s' => unsigned s'
  | _ => unsigned s
  end%char.

(** Step 2 on one cell: the [object] branch strips commas and spaces before
    [to_numeric]; other dtypes keep the number; [None] is NaN. *)
Definition coerce_count (dt : dtype) (c : cell) : option Z :=
  match dt with
  | Object =>
      to_numeric (Py.remove_char " " (Py.remove_char "," (astype_str Object c)))
  | _ => match c with CInt z => Some z | _ => None end
  end.

(** [standardize_quarter] *)
Definition standardize_quarter (q : string) : string :=
  let q := Py.upper (Py.strip q) in
  if existsb (String.eqb q) ["1"; "1ST"; "FIRST"] then "Q1"
  else if existsb (String.eqb q) ["2"; "2ND"; "SECOND"] then "Q2"
  else if existsb (String.eqb q) ["3"; "3RD"; "THIRD"] then "Q3"
  else if existsb (String.eqb q) ["4"; "4TH"; "FOURTH"] then "Q4"
  else if Py.startswith q "Q" && Py.isdigit (substring 1 (String.length q - 1) q)
  then q
  else q.

(** [.astype(str).str.upper()], [.str.replace('QUARTER', 'Q')],
    [.str.replace(' ', '')]: the column before [standardize_quarter]. *)
Definition quarter_prep (s : string) : string :=
  Py.remove_char " " (Py.replace "QUARTER" "Q" (Py.upper s)).

(** The whole canonicalisation of one quarter text. *)
Definition canon_quarter (s : string) : string :=
  standardize_quarter (quarter_prep s).

Inductive outcome :=
| Failed (msg : string)
| Processed (rows : list nrow).

Fixpoint filter_map {A B} (f : A -> option B) (l : list A) : list B :=
  match l with
  | [] => []
  | x :: l' => match f x with
               | Some y => y :: filter_map f l'
               | None => filter_map f l'
               end
  end.

Definition column_dtypes (rows : list raw_row) : dtype * dtype * dtype * dtype :=
  (dtype_of (map f_year rows), dtype_of (map f_quarter rows),
   dtype_of (map f_dept rows), dtype_of (map f_count rows)).

(** Steps 2 to 5 of [preprocess_data], column by column as pandas runs them.
    None of these steps raises on the modelled tables, so the [except]
    branch is never taken. *)
Definition preprocess (rows : list raw_row) : outcome :=
  let '(dty, dtq, dtd, dtc) := column_dtypes rows in
  (* df_renamed['No. of Patients'] = pd.to_numeric(...) *)
  let converted := map (fun r => mkrow (f_year r) (f_quarter r) (f_dept r)
                                       (coerce_count dtc (f_count r))) rows in
  (* dropna(subset=['No. of Patients']) *)
  let counted := filter_map (fun r => option_map (mkrow (f_year r) (f_quarter r) (f_dept r))
                                                 (f_count r)) converted in
  match counted with
  | [] => Failed "No valid patient numbers found after conversion!"
  | _ =>
    (* quarter_col = ... ; df_renamed['Quarter'] = quarter_col.apply(standardize_quarter) *)
    let standardized := map (fun r => mkrow (f_year r)
                                  (standardize_quarter (quarter_prep (astype_str dtq (f_quarter r))))
                                  (f_dept r) (f_count r)) counted in
    (* isin(valid_quarters), then pd.Categorical *)
    let kept := filter_map (fun r => option_map (fun q => mkrow (f_year r) q (f_dept r) (f_count r))
                                                (quarter_of_string (f_quarter r))) standardized in
    (* Year .astype(str); Department .astype(str).str.strip() *)
    let yeared := map (fun r => mkrow (astype_str dty (f_year r)) (f_quarter r)
                                      (f_dept r) (f_count r)) kept in
    let cleaned := map (fun r => mkrow (f_year r) (f_quarter r)
                                       (Py.strip (astype_str dtd (f_dept r))) (f_count r)) yeared in
    Processed cleaned
  end.

(** One row through steps 2 to 5, as a single function. *)
Definition normalize_row (dts : dtype * dtype * dtype * dtype) (r : raw_row) : option nrow :=
  let '(dty, dtq, dtd, dtc) := dts in
  match coerce_count dtc (f_count r) with
  | None => None
  | Some n =>
      match quarter_of_string (canon_quarter (astype_str dtq (f_quarter r))) with
      | None => None
      | Some q => Some (mkrow (astype_str dty (f_year r)) q
                              (Py.strip (astype_str dtd (f_dept r))) n)
      end
  end.

Definition count_dtype (rows : list raw_row) : dtype := dtype_of (map f_count rows).
Definition quarter_dtype (rows : list raw_row) : dtype := dtype_of (map f_quarter rows).

Definition count_fails (rows : list raw_row) (r : raw_row) : bool :=
  match coerce_count (count_dtype rows) (f_count r) with None => true | Some _ => false end.

End Norm.
Import Norm.

(** ** Aggregator: [chart_data] of the main panel *)

Module Agg.

Definition quarter_eqb (a b : quarter) : bool :=
  Nat.eqb (quarter_index a) (quarter_index b).

(** [df_processed[df_processed['Department'] == selected_department]] *)
Definition department_df (sel : string) (rows : list nrow) : list nrow :=
  filter (fun r => String.eqb (f_dept r) sel) rows.

Record agg_row := mkagg { a_year : string; a_quarter : quarter; a_count : Z }.

(** A stable insertion sort, standing for pandas' sorting of keys. *)
Fixpoint insert {A} (leb : A -> A -> bool) (x : A) (l : list A) : list A :=
  match l with
  | [] => [x]
  | h :: t => if leb x h then x :: h :: t else h :: insert leb x t
  end.

Definition isort {A} (leb : A -> A -> bool) (l : list A) : list A :=
  fold_right (insert leb) [] l.

Definition str_leb (a b : string) : bool := negb (Py.str_ltb b a).

(** The sum of [No. of Patients] over the rows of group [(y, q)]. *)
Definition group_sum (y : string) (q : quarter) (rows : list nrow) : Z :=
  fold_right (fun r acc =>
                (if String.eqb (f_year r) y && quarter_eqb (f_quarter r) q
                 then f_count r else 0) + acc)%Z 0%Z rows.

(** [groupby(['Year', 'Quarter'], as_index=False, observed=False)[...].sum()]:
    the [Year] grouper is a plain column, so its observed values (sorted)
    are the groups; the [Quarter] grouper is categorical and [observed=False]
    takes all of its categories.  Groups are the product of both. *)
Definition groupby_sum (rows : list nrow) : list agg_row :=
  flat_map (fun y => map (fun q => mkagg y q (group_sum y q rows)) valid_quarters)
           (isort str_leb (nodup string_dec (map f_year rows))).

(** [sort_values(['Year', 'Quarter'])]: Year by string order, Quarter by its
    category order. *)
Definition key_ltb (a b : agg_row) : bool :=
  Py.str_ltb (a_year a) (a_year b)
  || (String.eqb (a_year a) (a_year b)
      && (quarter_index (a_quarter a) <? quarter_index (a_quarter b))%nat).

Definition key_leb (a b : agg_row) : bool := negb (key_ltb b a).

Definition sort_values (l : list agg_row) : list agg_row := isort key_leb l.

Definition chart_data (sel : string) (rows : list nrow) : list agg_row :=
  sort_values (groupby_sum (department_df sel rows)).

(** Year ascending in string order, then Quarter in category order. *)
Definition key_le (a b : agg_row) : Prop :=
  Py.str_ltb (a_year a) (a_year b) = true
  \/ (a_year a = a_year b /\ (quarter_index (a_quarter a) <= quarter_index (a_quarter b))%nat).

Definition sumZ (l : list Z) : Z := fold_right Z.add 0%Z l.

End Agg.
Import Agg.

(** ** Readings of the spec's quarter canonicalisation *)

Module SpecQuarter.

(** The explicit mapping of the spec, applied to an already prepared text. *)
Definition spec_map (q : string) : string :=
  if existsb (String.eqb q) ["1"; "1ST"; "FIRST"] then "Q1"
  else if existsb (String.eqb q) ["2"; "2ND"; "SECOND"] then "Q2"
  else if existsb (String.eqb q) ["3"; "3RD"; "THIRD"] then "Q3"
  else if existsb (String.eqb q) ["4"; "4TH"; "FOURTH"] then "Q4"
  else q.

(** Upper-case, then the whitespace step [ws], then replace ["QUARTER"] by
    ["Q"], then map: the order of the spec sentence. *)
Definition spec_canon (ws : string -> string) (s : string) : string :=
  spec_map (Py.replace "QUARTER" "Q" (ws (Py.upper s))).

(** Three readings of "strips whitespace". *)
Fixpoint remove_whitespace (s : string) : string :=
  match s with
  | EmptyString => EmptyString
  | String c s' => if Py.is_space c then remove_whitespace s' else String c (remove_whitespace s')
  end.

Definition ws_strip (s : string) : string := Py.strip s.
Definition ws_remove_all (s : string) : string := remove_whitespace s.
Definition ws_remove_spaces_strip (s : string) : string := Py.strip (Py.remove_char " " s).

(** The amended description: upper-case, replace ["QUARTER"] by ["Q"],
    delete every space, strip surrounding whitespace, upper-case, map. *)
Definition amended_canon (s : string) : string :=
  spec_map (Py.upper (Py.strip (Py.remove_char " " (Py.replace "QUARTER" "Q" (Py.upper s))))).

End SpecQuarter.
Import SpecQuarter.

(** ** The rest of [preprocess_data] and of the main panel *)

Module App.

(** [required_cols] and the labels the rename gives the four fields. *)
Definition required_cols : list field := [Year; Quarter; Department; Patients].

Definition field_name (f : field) : string :=
  match f with
  | Year => "Year" | Quarter => "Quarter" | Department => "Department"
  | Patients => "No. of Patients"
  end.

(** [[col for col in required_cols if col not in column_map]]; the second
    check's [column_map[col] is None] never holds, values being strings. *)
Definition missing_cols (column_map : column_map) : list field :=
  filter (fun f => match dict_get f column_map with Some _ => false | None => true end)
         required_cols.

(** The manual-mapping loop: [select f] is the value the select box for
    field [f] returns, one of [['None'] + df.columns.tolist()]. *)
Definition manual_map (column_map : column_map) (select : field -> string) : Detect.column_map :=
  fold_left (fun mm req_col =>
               match dict_get req_col column_map with
               | Some _ => mm
               | None => let selected := select req_col in
                         if String.eqb selected "None" then mm
                         else dict_set req_col selected mm
               end) required_cols [].

(** [dict.update] *)
Definition dict_update (m upd : Detect.column_map) : Detect.column_map :=
  fold_left (fun acc '(k, v) => dict_set k v acc) upd m.

(** The mapping part of [preprocess_data]: [None] is the early
    [return None] after "Still missing". *)
Definition resolve_mapping (cols : list string) (select : field -> string)
  : option Detect.column_map :=
  let column_map := detect_columns cols in
  match missing_cols column_map with
  | [] => Some column_map
  | _ =>
      let column_map := dict_update column_map (manual_map column_map select) in
      match missing_cols column_map with
      | [] => Some column_map
      | _ => None
      end
  end.

(** A dict from column names to labels, with insertion order. *)
Fixpoint sdict_set (k v : string) (d : list (string * string)) : list (string * string) :=
  match d with
  | [] => [(k, v)]
  | (k', v') :: d' => if String.eqb k k' then (k, v) :: d' else (k', v') :: sdict_set k v d'
  end.

Fixpoint sdict_get (k : string) (d : list (string * string)) : option string :=
  match d with
  | [] => None
  | (k', v) :: d' => if String.eqb k k' then Some v else sdict_get k d'
  end.

(** [rename_dict = {v: k for k, v in column_map.items() if v is not None}] *)
Definition rename_dict (column_map : Detect.column_map) : list (string * string) :=
  fold_left (fun d '(k, v) => sdict_set v (field_name k) d) column_map [].

(** The column labels after [df.rename(columns=rename_dict)]. *)
Definition renamed_columns (rd : list (string * string)) (cols : list string) : list string :=
  map (fun c => match sdict_get c rd with Some k => k | None => c end) cols.

(** [sorted(df_processed['Department'].astype(str).unique())] *)
Definition departments (rows : list nrow) : list string :=
  isort str_leb (nodup string_dec (map f_dept rows)).

(** [department_df['Year'].nunique()], the "Time Period" metric. *)
Definition nunique_years (rows : list nrow) : nat :=
  length (nodup string_dec (map f_year rows)).

(** [chart_data.pivot(index='Year', columns='Quarter', values=...)]: one
    row per Year (sorted), one column per Quarter present (category order),
    [None] for an absent cell. *)
Definition pivot (chart : list agg_row) : list (string * list (quarter * option Z)) :=
  map (fun y =>
         (y, map (fun q => (q, option_map a_count
                                 (find (fun a => String.eqb (a_year a) y
                                                 && quarter_eqb (a_quarter a) q) chart)))
                 (filter (fun q => existsb (fun a => quarter_eqb (a_quarter a) q) chart)
                         valid_quarters)))
      (isort str_leb (nodup string_dec (map a_year chart))).

(** [.fillna(0)] *)
Definition fillna0 (p : list (string * list (quarter * option Z))) : list (string * list (quarter * Z)) :=
  map (fun '(y, cells) => (y, map (fun '(q, v) => (q, match v with Some n => n | None => 0%Z end)) cells)) p.

(** Spellings a quarter text may take, once prepared, to be kept as [q]. *)
Definition quarter_spellings (q : quarter) : list string :=
  match q with
  | Q1 => ["1"; "1ST"; "FIRST"; "Q1"]
  | Q2 => ["2"; "2ND"; "SECOND"; "Q2"]
  | Q3 => ["3"; "3RD"; "THIRD"; "Q3"]
  | Q4 => ["4"; "4TH"; "FOURTH"; "Q4"]
  end.

(** The text [standardize_quarter] compares: the prepared column value,
    stripped and upper-cased. *)
Definition prepared_quarter (s : string) : string := Py.upper (Py.strip (quarter_prep s)).

(** The last field of a column map whose column is [x]. *)
Fixpoint last_key (x : string) (m : Detect.column_map) : option field :=
  match m with
  | [] => None
  | (k, v) :: m' => match last_key x m' with
                    | Some f => Some f
                    | None => if String.eqb x v then Some k else None
                    end
  end.

(** Text made only of digits, ['-'] and ['.'], as [astype(str)] writes a
    number. *)
Fixpoint all_chars (p : ascii -> bool) (s : string) : bool :=
  match s with
  | EmptyString => true
  | String c s' => p c && all_chars p s'
  end.

Definition num_char (c : ascii) : bool :=
  Py.is_digit c || Ascii.eqb c "-" || Ascii.eqb c ".".

(** The first character, if any, is not whitespace. *)
Definition hd_ok (s : string) : bool :=
  match s with
  | EmptyString => true
  | String c _ => negb (Py.is_space c)
  end.

End App.
Import App.

(** * Proofs *)

(** ** Column matcher *)

Lemma scan_first_match : forall f cols,
  scan (terms_of f) cols = spec_first_match f cols.
Proof.
  intros f cols; induction cols as [|c cols IH]; simpl; [reflexivity|].
  unfold col_matches; destruct (existsb _ _); [reflexivity | exact IH].
Qed.

Lemma detect_columns_shape : forall cols,
  detect_columns cols =
  let add f m := match spec_first_match f cols with
                 | Some c => dict_set f c m | None => m end in
  add Patients (add Department (add Quarter (add Year []))).
Proof.
  intros cols; unfold detect_columns; simpl.
  rewrite <- !(scan_first_match _ cols); reflexivity.
Qed.

Lemma detect_get : forall cols f,
  dict_get f (detect_columns cols) = spec_first_match f cols.
Proof.
  intros cols f; rewrite detect_columns_shape; cbv beta zeta.
  destruct f; destruct (spec_first_match Year cols), (spec_first_match Quarter cols),
    (spec_first_match Department cols), (spec_first_match Patients cols);
    reflexivity.
Qed.

Lemma detect_keys : forall cols,
  map fst (detect_columns cols) =
  filter (fun f => match spec_first_match f cols with Some _ => true | None => false end)
         all_fields.
Proof.
  intros cols; rewrite detect_columns_shape; cbv beta zeta; simpl.
  destruct (spec_first_match Year cols), (spec_first_match Quarter cols),
    (spec_first_match Department cols), (spec_first_match Patients cols);
    reflexivity.
Qed.

(** C1: [detect_columns] maps each logical field to the first raw column, in
    column order, whose cleaned name (lower-cased, spaces, dots and hyphens
    turned into underscores) contains one of the field's tokens; fields are
    considered independently, so a column may serve several fields; the keys
    present are exactly the fields that matched, in the order Year, Quarter,
    Department, Patients, and unmatched fields are simply absent. *)
Theorem detect_columns_first_match : forall cols,
  (forall f, dict_get f (detect_columns cols) = spec_first_match f cols) /\
  map fst (detect_columns cols) =
  filter (fun f => match spec_first_match f cols with Some _ => true | None => false end)
         all_fields.
Proof.
  intros cols; split; [intro f; apply detect_get | apply detect_keys].
Qed.

(** C10: the Quarter tokens include ["q"]: whenever the first raw column's
    cleaned name contains the letter q (as ["Frequency"] does), Quarter is
    mapped to that column, whatever columns (such as ["Quarter"]) follow. *)
Theorem detect_quarter_single_q : forall c rest,
  Py.contains "q" (clean c) = true ->
  dict_get Quarter (detect_columns (c :: rest)) = Some c.
Proof.
  intros c rest Hq; rewrite detect_get; unfold spec_first_match; simpl.
  rewrite Hq, !orb_true_r; reflexivity.
Qed.

Lemma detect_quarter_single_q_witness :
  Py.contains "q" (clean "Frequency") = true /\
  dict_get Quarter (detect_columns ["Frequency"; "Quarter"]) = Some "Frequency".
Proof.
  split; [reflexivity | apply detect_quarter_single_q; reflexivity].
Defined.

(** ** Normaliser *)

Section FilterMap.
Context {A B C : Type}.

Lemma filter_map_map (g : B -> option C) (f : A -> B) (l : list A) :
  filter_map g (map f l) = filter_map (fun x => g (f x)) l.
Proof. induction l as [|x l IH]; simpl; [reflexivity|]; rewrite IH; reflexivity. Qed.

Lemma map_filter_map (h : B -> C) (f : A -> option B) (l : list A) :
  map h (filter_map f l) = filter_map (fun x => option_map h (f x)) l.
Proof.
  induction l as [|x l IH]; simpl; [reflexivity|].
  destruct (f x); simpl; rewrite IH; reflexivity.
Qed.

Lemma filter_map_filter_map (g : B -> option C) (f : A -> option B) (l : list A) :
  filter_map g (filter_map f l) =
  filter_map (fun x => match f x with Some y => g y | None => None end) l.
Proof.
  induction l as [|x l IH]; simpl; [reflexivity|].
  destruct (f x); simpl; [destruct (g b)|]; rewrite IH; reflexivity.
Qed.

Lemma filter_map_ext_in (f g : A -> option B) (l : list A) :
  (forall x, In x l -> f x = g x) -> filter_map f l = filter_map g l.
Proof.
  induction l as [|x l IH]; intros H; simpl; [reflexivity|].
  rewrite (H x (or_introl eq_refl)), IH by (intros; apply H; right; assumption).
  reflexivity.
Qed.

Lemma filter_map_nil_iff (f : A -> option B) (l : list A) :
  filter_map f l = [] <-> forall x, In x l -> f x = None.
Proof.
  induction l as [|x l IH]; simpl.
  - split; [intros _ x []|reflexivity].
  - destruct (f x) eqn:Ef; split.
    + discriminate.
    + intros H; rewrite (H x (or_introl eq_refl)) in Ef; discriminate.
    + intros H y [<-|Hy]; [assumption | apply IH; assumption].
    + intros H; apply IH; intros y Hy; apply H; right; assumption.
Qed.

Lemma In_filter_map (f : A -> option B) (l : list A) (y : B) :
  In y (filter_map f l) <-> exists x, In x l /\ f x = Some y.
Proof.
  induction l as [|x l IH]; simpl.
  - split; [intros []|intros (x & [] & _)].
  - destruct (f x) eqn:Ef; simpl; rewrite IH; split.
    + intros [<-|(x' & Hx' & E)]; [exists x; auto | exists x'; auto].
    + intros (x' & [<-|Hx'] & E); [left; congruence | right; exists x'; auto].
    + intros (x' & Hx' & E); exists x'; auto.
    + intros (x' & [<-|Hx'] & E); [congruence | exists x'; auto].
Qed.

End FilterMap.

(** [preprocess] fails exactly when no patient count survives coercion, and
    otherwise keeps, in order, the rows that [normalize_row] keeps. *)
Lemma preprocess_rowwise : forall rows,
  preprocess rows =
  if forallb (count_fails rows) rows
  then Failed "No valid patient numbers found after conversion!"
  else Processed (filter_map (normalize_row (column_dtypes rows)) rows).
Proof.
  intros rows; unfold preprocess, count_fails, count_dtype.
  unfold column_dtypes at 1; cbv beta iota zeta.
  set (dty := dtype_of (map f_year rows)); set (dtq := dtype_of (map f_quarter rows));
  set (dtd := dtype_of (map f_dept rows)); set (dtc := dtype_of (map f_count rows)).
  rewrite filter_map_map; cbn [f_year f_quarter f_dept f_count].
  destruct (forallb _ rows) eqn:Hall.
  - rewrite (proj2 (filter_map_nil_iff _ _)); [reflexivity|].
    intros r Hr; rewrite forallb_forall in Hall; specialize (Hall r Hr).
    destruct (coerce_count dtc (f_count r)); [discriminate | reflexivity].
  - match goal with
    | |- match filter_map ?f rows with _ => _ end = _ =>
        destruct (filter_map f rows) as [|x xs] eqn:Ec
    end.
    + exfalso; rewrite filter_map_nil_iff in Ec.
      apply Bool.not_true_iff_false in Hall; apply Hall, forallb_forall.
      intros r Hr; specialize (Ec r Hr).
      destruct (coerce_count dtc (f_count r)); [discriminate | reflexivity].
    + rewrite <- Ec; clear Ec Hall.
      rewrite map_map, map_filter_map, filter_map_map, filter_map_filter_map.
      f_equal; apply filter_map_ext_in; intros r _.
      unfold column_dtypes, normalize_row; fold dty dtq dtd dtc; cbv beta iota zeta.
      destruct (coerce_count dtc (f_count r)); [|reflexivity].
      cbn [option_map f_year f_quarter f_dept f_count].
      unfold canon_quarter.
      destruct (quarter_of_string (standardize_quarter (quarter_prep (astype_str dtq (f_quarter r)))));
        reflexivity.
Qed.

Lemma canon_quarter_eq_amended : forall s, canon_quarter s = amended_canon s.
Proof.
  intros s; unfold canon_quarter, standardize_quarter, amended_canon, spec_map, quarter_prep.
  cbv zeta.
  set (q := Py.upper (Py.strip (Py.remove_char " " (Py.replace "QUARTER" "Q" (Py.upper s))))).
  destruct (existsb (String.eqb q) ["1"; "1ST"; "FIRST"]); [reflexivity|].
  destruct (existsb (String.eqb q) ["2"; "2ND"; "SECOND"]); [reflexivity|].
  destruct (existsb (String.eqb q) ["3"; "3RD"; "THIRD"]); [reflexivity|].
  destruct (existsb (String.eqb q) ["4"; "4TH"; "FOURTH"]); [reflexivity|].
  destruct (_ && _); reflexivity.
Qed.

Lemma quarter_of_string_label : forall s q,
  quarter_of_string s = Some q -> s = quarter_label q.
Proof.
  intros s q H; unfold quarter_of_string, valid_quarters in H; cbn [find quarter_label] in H.
  repeat match type of H with
    | (if String.eqb ?a s then _ else _) = _ =>
        let E := fresh "E" in
        destruct (String.eqb a s) eqn:E;
        [injection H as <-; apply String.eqb_eq in E; symmetry; exact E|]
    end.
  discriminate.
Qed.

Lemma preprocess_processed : forall rows out,
  preprocess rows = Processed out ->
  out = filter_map (normalize_row (column_dtypes rows)) rows.
Proof.
  intros rows out H; rewrite preprocess_rowwise in H.
  destruct (forallb _ _); [discriminate | injection H; auto].
Qed.

(** C2 (counterexample): with the steps in the order the claim gives them
    (upper-case, strip whitespace, replace ["QUARTER"], map), each of three
    readings of "strips whitespace" (trim the ends; delete all whitespace;
    delete spaces and trim) disagrees with the code on some cell: the code
    keeps ["Quarter 1"] as Q1 and drops ["Q<tab>1"] and ["Quar ter 1"]. *)
Lemma quarter_canonicalization_counterexample :
  preprocess [mkrow (CStr "2021") (CStr "Quarter 1") (CStr "ER") (CStr "10")]
    = Processed [mkrow "2021" Q1 "ER" 10%Z] /\
  quarter_of_string (spec_canon ws_strip "Quarter 1") = None /\
  preprocess [mkrow (CStr "2021") (CStr ("Q" ++ String (ascii_of_nat 9) "1")) (CStr "ER") (CStr "10")]
    = Processed [] /\
  quarter_of_string (spec_canon ws_remove_all ("Q" ++ String (ascii_of_nat 9) "1")) = Some Q1 /\
  preprocess [mkrow (CStr "2021") (CStr "Quar ter 1") (CStr "ER") (CStr "10")]
    = Processed [] /\
  quarter_of_string (spec_canon ws_remove_spaces_strip "Quar ter 1") = Some Q1.
Proof. repeat split; vm_compute; reflexivity. Qed.

(** C2 (amended): a quarter text is upper-cased, each non-overlapping
    ["QUARTER"] becomes ["Q"], every space character is deleted, surrounding
    whitespace is stripped, the text is upper-cased again and then mapped
    (["1"], ["1ST"], ["FIRST"] to Q1, and so on; anything else unchanged);
    the rows kept are exactly, in order, the rows with a parsed patient count
    whose canonical quarter is one of Q1..Q4, carrying that quarter. *)
Theorem quarter_canonicalization_amended :
  (forall s, canon_quarter s = amended_canon s) /\
  (forall rows out, preprocess rows = Processed out ->
     map f_quarter out =
     filter_map (fun r => if count_fails rows r then None
                          else quarter_of_string
                                 (amended_canon (astype_str (quarter_dtype rows) (f_quarter r))))
                rows).
Proof.
  split; [exact canon_quarter_eq_amended|].
  intros rows out H; apply preprocess_processed in H; subst out.
  rewrite map_filter_map; apply filter_map_ext_in; intros r _.
  unfold normalize_row, count_fails, column_dtypes, count_dtype, quarter_dtype.
  cbv beta iota zeta.
  destruct (coerce_count _ (f_count r)); [|reflexivity].
  rewrite <- canon_quarter_eq_amended.
  destruct (quarter_of_string _); reflexivity.
Qed.

Lemma quarter_canonicalization_amended_witness :
  preprocess [mkrow (CStr "2021") (CStr "Quarter 1") (CStr "ER") (CStr "10")]
    = Processed [mkrow "2021" Q1 "ER" 10%Z] /\
  map f_quarter [mkrow "2021" Q1 "ER" 10%Z] =
  filter_map (fun r => if count_fails [mkrow (CStr "2021") (CStr "Quarter 1") (CStr "ER") (CStr "10")] r
                       then None
                       else quarter_of_string
                              (amended_canon (astype_str (quarter_dtype
                                 [mkrow (CStr "2021") (CStr "Quarter 1") (CStr "ER") (CStr "10")])
                                 (f_quarter r))))
             [mkrow (CStr "2021") (CStr "Quarter 1") (CStr "ER") (CStr "10")].
Proof.
  split; [vm_compute; reflexivity|].
  apply (proj2 quarter_canonicalization_amended); vm_compute; reflexivity.
Defined.

(** C6 (code defect): when every row with a parsed count is then dropped by
    the quarter filter, [preprocess_data] has no emptiness check (unlike the
    one after the count coercion): it reports success with zero rows. *)
Theorem preprocess_empty_after_quarter_filter :
  preprocess [mkrow (CStr "2021") (CStr "Q5") (CStr "ER") (CStr "10")] = Processed [].
Proof. vm_compute; reflexivity. Qed.

(** C7 (counterexample): a count ["-5"] parses and the row is kept with a
    negative patient count; nothing checks the sign. *)
Lemma preprocess_negative_count :
  preprocess [mkrow (CStr "2021") (CStr "Q1") (CStr "ER") (CStr "-5")]
    = Processed [mkrow "2021" Q1 "ER" (-5)%Z] /\ (-5 < 0)%Z.
Proof. split; [vm_compute; reflexivity | lia]. Qed.

(** C7 (amended): the retained patient counts are exactly, in row order, the
    parsed counts of the rows whose quarter is valid; every retained count is
    the parsed value of an input row's cell (possibly negative), and a row
    whose count does not parse contributes nothing (no zero or placeholder). *)
Theorem preprocess_counts_parsed : forall rows out,
  preprocess rows = Processed out ->
  map f_count out =
  filter_map (fun r => match quarter_of_string
                               (canon_quarter (astype_str (quarter_dtype rows) (f_quarter r))) with
                       | Some _ => coerce_count (count_dtype rows) (f_count r)
                       | None => None
                       end) rows /\
  (forall n, In n out ->
     exists r, In r rows /\ coerce_count (count_dtype rows) (f_count r) = Some (f_count n)).
Proof.
  intros rows out H; apply preprocess_processed in H; subst out.
  assert (E : map f_count (filter_map (normalize_row (column_dtypes rows)) rows) =
    filter_map (fun r => match quarter_of_string
                                 (canon_quarter (astype_str (quarter_dtype rows) (f_quarter r))) with
                         | Some _ => coerce_count (count_dtype rows) (f_count r)
                         | None => None
                         end) rows).
  { rewrite map_filter_map; apply filter_map_ext_in; intros r _.
    unfold normalize_row, column_dtypes, count_dtype, quarter_dtype; cbv beta iota zeta.
    destruct (coerce_count _ (f_count r)), (quarter_of_string _); reflexivity. }
  split; [exact E|].
  intros n Hn; apply (in_map f_count) in Hn; rewrite E in Hn.
  apply In_filter_map in Hn; destruct Hn as (r & Hr & Er).
  exists r; split; [exact Hr|].
  destruct (quarter_of_string _); [exact Er | discriminate].
Qed.

Lemma preprocess_counts_parsed_witness :
  preprocess [mkrow (CStr "2021") (CStr "Q1") (CStr "ER") (CStr "1,234");
              mkrow (CStr "2021") (CStr "Q2") (CStr "ER") (CStr "abc")]
    = Processed [mkrow "2021" Q1 "ER" 1234%Z] /\
  map f_count [mkrow "2021" Q1 "ER" 1234%Z] = [1234%Z].
Proof.
  assert (H : preprocess [mkrow (CStr "2021") (CStr "Q1") (CStr "ER") (CStr "1,234");
              mkrow (CStr "2021") (CStr "Q2") (CStr "ER") (CStr "abc")]
    = Processed [mkrow "2021" Q1 "ER" 1234%Z]) by (vm_compute; reflexivity).
  split; [exact H|].
  rewrite (proj1 (preprocess_counts_parsed _ _ H)); vm_compute; reflexivity.
Defined.

(** C8 (counterexample): canonicalisation is not idempotent on every input:
    ["Quar ter"] canonicalises to ["QUARTER"] (the spaces go after the
    replacement), which canonicalises further to ["Q"]. *)
Lemma canon_quarter_not_idempotent :
  canon_quarter "Quar ter" = "QUARTER" /\
  canon_quarter (canon_quarter "Quar ter") = "Q".
Proof. split; vm_compute; reflexivity. Qed.

(** C8 (amended): the canonical labels Q1..Q4 are fixed points of the
    canonicalisation, so [canon (canon q) = canon q] for every [q] whose
    canonical form is one of Q1..Q4, that is for every quarter that survives
    the filter. *)
Theorem canon_quarter_idempotent_on_valid :
  (forall q, canon_quarter (quarter_label q) = quarter_label q) /\
  (forall s q, quarter_of_string (canon_quarter s) = Some q ->
               canon_quarter (canon_quarter s) = canon_quarter s).
Proof.
  assert (Hfix : forall q, canon_quarter (quarter_label q) = quarter_label q)
    by (intros []; vm_compute; reflexivity).
  split; [exact Hfix|].
  intros s q H; apply quarter_of_string_label in H; rewrite H; apply Hfix.
Qed.

Lemma canon_quarter_idempotent_on_valid_witness :
  quarter_of_string (canon_quarter "second") = Some Q2 /\
  canon_quarter (canon_quarter "second") = canon_quarter "second".
Proof.
  split; [vm_compute; reflexivity|].
  apply (proj2 canon_quarter_idempotent_on_valid "second" Q2); vm_compute; reflexivity.
Defined.

Lemma existsb_is_str_In : forall (r : raw_row) rows s,
  In r rows -> f_count r = CStr s -> existsb is_str (map f_count rows) = true.
Proof.
  intros r rows s Hr Hc; apply existsb_exists; exists (CStr s); split; [|reflexivity].
  rewrite <- Hc; apply in_map; exact Hr.
Qed.

(** C9: in a table whose patient-count column holds text (dtype [object]),
    commas and spaces are removed before parsing, so a row whose count cell
    is ["1,234"] and whose quarter is valid yields a normalised row with
    count 1234 (and the normalisation succeeds). *)
Theorem preprocess_thousands_separator : forall rows r,
  In r rows -> f_count r = CStr "1,234" ->
  quarter_of_string (canon_quarter (astype_str (quarter_dtype rows) (f_quarter r))) <> None ->
  exists out, preprocess rows = Processed out /\
    exists n, In n out /\ f_count n = 1234%Z /\
              f_year n = astype_str (dtype_of (map f_year rows)) (f_year r).
Proof.
  intros rows r Hr Hc Hq.
  assert (Hdt : count_dtype rows = Object).
  { unfold count_dtype, dtype_of; rewrite (existsb_is_str_In r rows "1,234" Hr Hc); reflexivity. }
  assert (Hcount : coerce_count (count_dtype rows) (f_count r) = Some 1234%Z)
    by (rewrite Hdt, Hc; vm_compute; reflexivity).
  rewrite preprocess_rowwise.
  assert (Hall : forallb (count_fails rows) rows = false).
  { apply Bool.not_true_iff_false; intros H; rewrite forallb_forall in H.
    specialize (H r Hr); unfold count_fails in H; rewrite Hcount in H; discriminate. }
  rewrite Hall; eexists; split; [reflexivity|].
  destruct (quarter_of_string (canon_quarter (astype_str (quarter_dtype rows) (f_quarter r))))
    as [q|] eqn:Eq; [|congruence].
  exists (mkrow (astype_str (dtype_of (map f_year rows)) (f_year r)) q
                (Py.strip (astype_str (dtype_of (map f_dept rows)) (f_dept r))) 1234%Z).
  split; [|split; reflexivity].
  apply In_filter_map; exists r; split; [exact Hr|].
  unfold normalize_row, column_dtypes; cbv beta iota zeta.
  unfold count_dtype in Hcount; unfold quarter_dtype in Eq.
  rewrite Hcount, Eq; reflexivity.
Qed.

Lemma preprocess_thousands_separator_witness :
  exists out,
    preprocess [mkrow (CStr "2021") (CStr "Q1") (CStr "ER") (CStr "1,234")] = Processed out /\
    exists n, In n out /\ f_count n = 1234%Z /\ f_year n = "2021".
Proof.
  apply (preprocess_thousands_separator
           [mkrow (CStr "2021") (CStr "Q1") (CStr "ER") (CStr "1,234")]
           (mkrow (CStr "2021") (CStr "Q1") (CStr "ER") (CStr "1,234"))).
  - left; reflexivity.
  - reflexivity.
  - vm_compute; discriminate.
Defined.

(** ** Aggregator *)

Section InsertionSort.
Context {A : Type} (leb : A -> A -> bool) (R : A -> A -> Prop).
Hypothesis leb_R : forall a b, leb a b = true -> R a b.
Hypothesis leb_false_R : forall a b, leb a b = false -> R b a.

Lemma insert_perm : forall x l, Permutation (insert leb x l) (x :: l).
Proof.
  intros x l; induction l as [|h t IH]; simpl; [reflexivity|].
  destruct (leb x h); [reflexivity|].
  rewrite IH; apply perm_swap.
Qed.

Lemma isort_perm : forall l, Permutation (isort leb l) l.
Proof.
  induction l as [|x l IH]; simpl; [reflexivity|].
  rewrite insert_perm, IH; reflexivity.
Qed.

Lemma insert_sorted : forall x l, LocallySorted R l -> LocallySorted R (insert leb x l).
Proof.
  intros x l; induction l as [|h t IH]; intros Hs; simpl; [constructor|].
  destruct (leb x h) eqn:Exh; [constructor; auto|].
  inversion Hs as [|? Ht|? y t' Ht' Hhy]; subst; simpl.
  - constructor; [constructor | apply leb_false_R; exact Exh].
  - specialize (IH Ht'); simpl in IH |- *.
    destruct (leb x y) eqn:Exy; constructor; auto.
Qed.

Lemma isort_sorted : forall l, Sorted R (isort leb l).
Proof.
  intros l; apply Sorted_LocallySorted_iff.
  induction l as [|x l IH]; simpl; [constructor|].
  apply insert_sorted; exact IH.
Qed.

End InsertionSort.

Lemma sumZ_app : forall l1 l2, sumZ (l1 ++ l2) = (sumZ l1 + sumZ l2)%Z.
Proof. induction l1 as [|x l1 IH]; intros l2; simpl; [reflexivity|]; rewrite IH; lia. Qed.

Lemma sumZ_perm : forall l1 l2, Permutation l1 l2 -> sumZ l1 = sumZ l2.
Proof. intros l1 l2 H; induction H; simpl; lia. Qed.

Lemma sumZ_map_add {X} (f g : X -> Z) : forall l,
  sumZ (map (fun x => f x + g x)%Z l) = (sumZ (map f l) + sumZ (map g l))%Z.
Proof. induction l as [|x l IH]; simpl; [reflexivity|]; rewrite IH; lia. Qed.

Lemma sumZ_groups : forall (g : string -> quarter -> Z) ys,
  sumZ (map a_count (flat_map (fun y => map (fun q => mkagg y q (g y q)) valid_quarters) ys)) =
  sumZ (map (fun y => g y Q1 + g y Q2 + g y Q3 + g y Q4)%Z ys).
Proof.
  intros g ys; induction ys as [|y ys IH]; [reflexivity|].
  cbn [flat_map]; rewrite map_app, sumZ_app, IH; cbn [map sumZ fold_right valid_quarters a_count]; unfold sumZ; lia.
Qed.

Lemma sumZ_indicator : forall (c : Z) y0 ys, NoDup ys -> In y0 ys ->
  sumZ (map (fun y => if String.eqb y0 y then c else 0%Z) ys) = c.
Proof.
  intros c y0 ys Hnd; induction Hnd as [|y ys Hy Hnd IH]; intros Hin; [destruct Hin|].
  simpl; destruct (String.eqb_spec y0 y) as [->|Hne].
  - assert (Hz : sumZ (map (fun y' => if String.eqb y y' then c else 0%Z) ys) = 0%Z).
    { clear IH Hnd Hin; induction ys as [|y' ys IHys]; simpl; [reflexivity|].
      destruct (String.eqb_spec y y') as [->|_]; [exfalso; apply Hy; left; reflexivity|].
      rewrite IHys; [reflexivity|]; intros H; apply Hy; right; exact H. }
    rewrite Hz; lia.
  - destruct Hin as [->|Hin]; [congruence|]; rewrite IH by exact Hin; lia.
Qed.

Lemma sumZ_zero {X} : forall l : list X, sumZ (map (fun _ => 0%Z) l) = 0%Z.
Proof. induction l; simpl; auto. Qed.

Lemma group_sums_total : forall ys (rows : list nrow), NoDup ys ->
  (forall r, In r rows -> In (f_year r) ys) ->
  sumZ (map (fun y => group_sum y Q1 rows + group_sum y Q2 rows
                      + group_sum y Q3 rows + group_sum y Q4 rows)%Z ys)
  = sumZ (map f_count rows).
Proof.
  intros ys rows Hnd; induction rows as [|r rows IH]; intros Hys.
  - simpl; unfold group_sum; simpl; rewrite (sumZ_zero ys); reflexivity.
  - transitivity (sumZ (map (fun y => if String.eqb (f_year r) y then f_count r else 0%Z) ys)
                  + sumZ (map (fun y => group_sum y Q1 rows + group_sum y Q2 rows
                                        + group_sum y Q3 rows + group_sum y Q4 rows)%Z ys))%Z.
    + rewrite <- sumZ_map_add; f_equal; apply map_ext; intros y.
      unfold group_sum; cbn [fold_right].
      destruct (String.eqb (f_year r) y); destruct (f_quarter r); simpl; lia.
    + rewrite sumZ_indicator by (auto; apply Hys; left; reflexivity).
      rewrite IH by (intros r' Hr'; apply Hys; right; exact Hr'); simpl; lia.
Qed.

Lemma groupby_years_spec : forall rows : list nrow,
  let ys := isort str_leb (nodup string_dec (map f_year rows)) in
  NoDup ys /\ (forall y, In y ys <-> In y (map f_year rows)).
Proof.
  intros rows ys; split.
  - apply (Permutation_NoDup (Permutation_sym (isort_perm str_leb _))), NoDup_nodup.
  - intros y; split; intros H.
    + apply (Permutation_in _ (isort_perm str_leb _)), nodup_In in H; exact H.
    + apply (Permutation_in _ (Permutation_sym (isort_perm str_leb _))), nodup_In; exact H.
Qed.

(** C3: the patient counts of the chart series add up to the patient counts
    of the selected department's rows: grouping by (Year, Quarter) and
    summing loses no row. *)
Theorem chart_data_sum : forall sel rows,
  sumZ (map a_count (chart_data sel rows)) = sumZ (map f_count (department_df sel rows)).
Proof.
  intros sel rows; unfold chart_data, sort_values.
  rewrite (sumZ_perm _ _ (Permutation_map a_count (isort_perm key_leb _))).
  unfold groupby_sum; rewrite sumZ_groups.
  destruct (groupby_years_spec (department_df sel rows)) as [Hnd Hin].
  apply group_sums_total; [exact Hnd|].
  intros r Hr; apply Hin, in_map; exact Hr.
Qed.

Lemma str_ltb_antisym : forall a b,
  Py.str_ltb a b = false -> Py.str_ltb b a = false -> a = b.
Proof.
  induction a as [|x a IH]; intros [|y b] H1 H2; simpl in *; try reflexivity; try discriminate.
  apply orb_false_iff in H1 as [H1 H1']; apply orb_false_iff in H2 as [H2 H2'].
  apply Nat.ltb_ge in H1; apply Nat.ltb_ge in H2.
  assert (Exy : x = y).
  { rewrite <- (ascii_nat_embedding x), <- (ascii_nat_embedding y); f_equal; lia. }
  subst y; rewrite Ascii.eqb_refl in H1', H2'; simpl in H1', H2'.
  f_equal; apply IH; assumption.
Qed.

Lemma key_leb_le : forall a b, key_leb a b = true -> key_le a b.
Proof.
  intros a b H; unfold key_leb, key_ltb in H; apply negb_true_iff, orb_false_iff in H.
  destruct H as [Hba Hq]; unfold key_le.
  destruct (Py.str_ltb (a_year a) (a_year b)) eqn:Hab; [left; reflexivity|right].
  pose proof (str_ltb_antisym _ _ Hab Hba) as Ey; split; [exact Ey|].
  rewrite Ey, String.eqb_refl in Hq; simpl in Hq; apply Nat.ltb_ge in Hq; exact Hq.
Qed.

Lemma key_leb_false_le : forall a b, key_leb a b = false -> key_le b a.
Proof.
  intros a b H; unfold key_leb, key_ltb in H; apply negb_false_iff, orb_true_iff in H.
  unfold key_le; destruct H as [H|H]; [left; exact H|right].
  apply andb_true_iff in H as [Ey Hq]; apply String.eqb_eq in Ey; apply Nat.ltb_lt in Hq.
  split; [exact Ey | lia].
Qed.

(** C4: whatever the order of the input rows, the chart series is sorted by
    Year ascending in string order, and within one Year by Quarter in the
    order Q1 < Q2 < Q3 < Q4. *)
Theorem chart_data_sorted : forall sel rows, Sorted key_le (chart_data sel rows).
Proof.
  intros sel rows; unfold chart_data, sort_values.
  apply isort_sorted; [exact key_leb_le | exact key_leb_false_le].
Qed.

(** C5 (counterexample): the groupby runs with [observed=False] on the
    categorical Quarter, so a department with one row (2021, Q1, 100) gets a
    series with zero entries for (2021, Q2), (2021, Q3) and (2021, Q4), none of
    which is observed. *)
Lemma chart_data_zero_filled :
  chart_data "ER" [mkrow "2021" Q1 "ER" 100%Z] =
    [mkagg "2021" Q1 100; mkagg "2021" Q2 0; mkagg "2021" Q3 0; mkagg "2021" Q4 0]%Z /\
  In (mkagg "2021" Q2 0%Z) (chart_data "ER" [mkrow "2021" Q1 "ER" 100%Z]) /\
  ~ (exists r, In r (department_df "ER" [mkrow "2021" Q1 "ER" 100%Z]) /\
               f_year r = "2021" /\ f_quarter r = Q2).
Proof.
  split; [vm_compute; reflexivity|]; split; [vm_compute; right; left; reflexivity|].
  intros (r & Hr & _ & Hq); simpl in Hr; destruct Hr as [<-|[]]; discriminate.
Qed.

(** C5 (amended): the chart series has an entry for (Year, Quarter) exactly
    when the Year occurs among the selected department's rows (any of the
    four quarters); its count is the sum over the department's rows with that
    Year and Quarter, which is 0 when there is none. *)
Theorem chart_data_entries : forall sel rows a,
  In a (chart_data sel rows) <->
  In (a_year a) (map f_year (department_df sel rows)) /\
  a_count a = group_sum (a_year a) (a_quarter a) (department_df sel rows).
Proof.
  intros sel rows a; unfold chart_data, sort_values, groupby_sum.
  destruct (groupby_years_spec (department_df sel rows)) as [_ Hin].
  split.
  - intros H; apply (Permutation_in _ (isort_perm key_leb _)) in H.
    apply in_flat_map in H as (y & Hy & Ha); apply in_map_iff in Ha as (q & <- & _).
    simpl; split; [apply Hin; exact Hy | reflexivity].
  - intros [Hy Hc]; apply (Permutation_in _ (Permutation_sym (isort_perm key_leb _))).
    apply in_flat_map; exists (a_year a); split; [apply Hin; exact Hy|].
    apply in_map_iff; exists (a_quarter a); split.
    + destruct a as [y q c]; simpl in *; rewrite Hc; reflexivity.
    + destruct (a_quarter a); simpl; auto.
Qed.

(** * Further properties of the code *)

(** ** Column matcher *)





(** Every column [detect_columns] reports is one of the raw columns, and its
    cleaned name contains one of the field's tokens. *)
Theorem detect_columns_value_in_cols : forall cols f c,
  dict_get f (detect_columns cols) = Some c ->
  In c cols /\ col_matches (terms_of f) c = true.
Proof.
  intros cols f c H; rewrite detect_get in H; unfold spec_first_match in H.
  apply find_some in H; exact H.
Qed.

Lemma detect_columns_value_in_cols_witness :
  dict_get Department (detect_columns ["Yr"; "Dept."; "Num Patients"]) = Some "Dept." /\
  In "Dept." ["Yr"; "Dept."; "Num Patients"] /\ col_matches (terms_of Department) "Dept." = true.
Proof.
  assert (H : dict_get Department (detect_columns ["Yr"; "Dept."; "Num Patients"]) = Some "Dept.")
    by reflexivity.
  split; [exact H | exact (detect_columns_value_in_cols _ _ _ H)].
Defined.

(** ** Mapping resolution *)

Lemma dict_get_set : forall m k k' v,
  dict_get k (dict_set k' v m) = if field_eqb k k' then Some v else dict_get k m.
Proof.
  induction m as [|[k'' v''] m IH]; intros k k' v; simpl.
  - destruct k, k'; reflexivity.
  - destruct k', k''; simpl; try rewrite IH; destruct k; reflexivity.
Qed.

Lemma resolved_get : forall m select f,
  dict_get f (dict_update m (manual_map m select)) =
  match dict_get f m with
  | Some c => Some c
  | None => if String.eqb (select f) "None" then None else Some (select f)
  end.
Proof.
  intros m select f; unfold manual_map, required_cols; cbn [fold_left].
  (destruct (dict_get Year m) eqn:Ey;
    [|destruct (String.eqb (select Year) "None") eqn:Sy]);
  (destruct (dict_get Quarter m) eqn:Eq;
    [|destruct (String.eqb (select Quarter) "None") eqn:Sq]);
  (destruct (dict_get Department m) eqn:Ed;
    [|destruct (String.eqb (select Department) "None") eqn:Sd]);
  (destruct (dict_get Patients m) eqn:Ep;
    [|destruct (String.eqb (select Patients) "None") eqn:Sp]);
  unfold dict_update; cbn [fold_left dict_set field_eqb];
  repeat rewrite dict_get_set;
  destruct f; cbn [field_eqb];
  repeat match goal with
         | H : dict_get _ m = _ |- _ => rewrite H
         | H : String.eqb _ _ = _ |- _ => rewrite H
         end; reflexivity.
Qed.

Lemma missing_cols_nil : forall m,
  missing_cols m = [] <-> forall f, dict_get f m <> None.
Proof.
  intros m; unfold missing_cols, required_cols; simpl; split.
  - intros H f; destruct (dict_get Year m) eqn:Ey, (dict_get Quarter m) eqn:Eq,
      (dict_get Department m) eqn:Ed, (dict_get Patients m) eqn:Ep;
      try discriminate; destruct f; congruence.
  - intros H.
    destruct (dict_get Year m) eqn:Ey; [|exfalso; apply (H Year); exact Ey].
    destruct (dict_get Quarter m) eqn:Eq; [|exfalso; apply (H Quarter); exact Eq].
    destruct (dict_get Department m) eqn:Ed; [|exfalso; apply (H Department); exact Ed].
    destruct (dict_get Patients m) eqn:Ep; [|exfalso; apply (H Patients); exact Ep].
    reflexivity.
Qed.

Lemma detect_in_cols : forall cols f c,
  dict_get f (detect_columns cols) = Some c -> In c cols.
Proof.
  intros cols f c H; rewrite detect_get in H; unfold spec_first_match in H.
  apply find_some in H; apply H.
Qed.

(** When the mapping step lets [preprocess_data] go on, every field is
    mapped; a field [detect_columns] found keeps its detected column (a
    manual choice never overrides it), and a field it missed gets the
    column chosen in its select box; as the select boxes only offer
    ['None'] and the raw columns, every mapped column is a raw column. *)
Theorem resolve_mapping_sound : forall cols select m,
  (forall f, select f = "None" \/ In (select f) cols) ->
  resolve_mapping cols select = Some m ->
  forall f, exists c, dict_get f m = Some c /\ In c cols /\
    (dict_get f (detect_columns cols) = Some c \/
     (dict_get f (detect_columns cols) = None /\ select f = c)).
Proof.
  intros cols select m Hsel H f; unfold resolve_mapping in H.
  destruct (missing_cols (detect_columns cols)) eqn:M1.
  - injection H as <-; apply missing_cols_nil with (f := f) in M1.
    destruct (dict_get f (detect_columns cols)) as [c|] eqn:E; [|congruence].
    exists c; split; [reflexivity|]; split; [eapply detect_in_cols; exact E | left; reflexivity].
  - destruct (missing_cols (dict_update _ _)) eqn:M2; [|discriminate].
    injection H as <-; apply missing_cols_nil with (f := f) in M2.
    rewrite resolved_get in M2 |- *.
    destruct (dict_get f (detect_columns cols)) as [c|] eqn:E.
    + exists c; split; [reflexivity|]; split; [eapply detect_in_cols; exact E | left; reflexivity].
    + destruct (String.eqb_spec (select f) "None") as [Hn|Hn]; [congruence|].
      exists (select f); split; [reflexivity|]; split; [|right; split; reflexivity].
      destruct (Hsel f); [contradiction | assumption].
Qed.

Lemma resolve_mapping_sound_witness :
  exists c, dict_get Quarter
              (dict_update (detect_columns ["Yr"; "Ward"; "Visits"; "Term"])
                 (manual_map (detect_columns ["Yr"; "Ward"; "Visits"; "Term"])
                    (fun f => match f with Quarter => "Term" | Patients => "Visits" | _ => "None" end)))
            = Some c /\ In c ["Yr"; "Ward"; "Visits"; "Term"] /\
    (dict_get Quarter (detect_columns ["Yr"; "Ward"; "Visits"; "Term"]) = Some c \/
     (dict_get Quarter (detect_columns ["Yr"; "Ward"; "Visits"; "Term"]) = None /\ "Term" = c)).
Proof.
  apply (resolve_mapping_sound ["Yr"; "Ward"; "Visits"; "Term"]
           (fun f => match f with Quarter => "Term" | Patients => "Visits" | _ => "None" end)).
  - intros []; simpl; auto 6.
  - vm_compute; reflexivity.
Defined.

(** [preprocess_data] stops at "Still missing" exactly when some field that
    [detect_columns] did not find is left at ['None'] in its select box; in
    particular a raw column literally named ["None"] can never be chosen. *)
Theorem resolve_mapping_blocked : forall cols select,
  resolve_mapping cols select = None <->
  exists f, dict_get f (detect_columns cols) = None /\ select f = "None".
Proof.
  intros cols select; unfold resolve_mapping.
  destruct (missing_cols (detect_columns cols)) as [|h hs] eqn:M1.
  - split; [discriminate|]; intros (f & Hf & _).
    apply missing_cols_nil with (f := f) in M1; contradiction.
  - destruct (missing_cols (dict_update _ _)) as [|g gs] eqn:M2; split.
    + discriminate.
    + intros (f & Hf & Hs); apply missing_cols_nil with (f := f) in M2.
      rewrite resolved_get, Hf, Hs in M2; exfalso; apply M2; reflexivity.
    + intros _.
      assert (Hg : In g (missing_cols (dict_update (detect_columns cols)
                      (manual_map (detect_columns cols) select)))) by (rewrite M2; left; reflexivity).
      unfold missing_cols in Hg; apply filter_In in Hg as [_ Hg].
      rewrite resolved_get in Hg.
      destruct (dict_get g (detect_columns cols)) eqn:E; [discriminate|].
      destruct (String.eqb_spec (select g) "None") as [Hn|Hn]; [|discriminate].
      exists g; split; assumption.
    + reflexivity.
Qed.

(** ** The rename *)

Lemma sdict_get_set : forall d x k v,
  sdict_get x (sdict_set k v d) = if String.eqb x k then Some v else sdict_get x d.
Proof.
  induction d as [|[k' v'] d IH]; intros x k v; simpl; [reflexivity|].
  destruct (String.eqb_spec k k') as [->|Hne]; simpl.
  - destruct (String.eqb x k'); reflexivity.
  - rewrite IH; destruct (String.eqb_spec x k) as [->|]; [|reflexivity].
    destruct (String.eqb_spec k k'); [contradiction | reflexivity].
Qed.

Lemma rename_fold : forall m d x,
  sdict_get x (fold_left (fun d '(k, v) => sdict_set v (field_name k) d) m d) =
  match last_key x m with Some f => Some (field_name f) | None => sdict_get x d end.
Proof.
  induction m as [|[k v] m IH]; intros d x; simpl; [reflexivity|].
  rewrite IH, sdict_get_set; destruct (last_key x m); [reflexivity|].
  destruct (String.eqb x v); reflexivity.
Qed.

Lemma last_key_in : forall x m k, last_key x m = Some k -> In (k, x) m.
Proof.
  intros x; induction m as [|[k' v] m IH]; intros k H; simpl in *; [discriminate|].
  destruct (last_key x m) eqn:E; [injection H as <-; right; apply IH; reflexivity|].
  destruct (String.eqb_spec x v) as [->|]; [injection H as <-; left; reflexivity | discriminate].
Qed.

Lemma in_last_key : forall x m k, In (k, x) m -> last_key x m <> None.
Proof.
  intros x; induction m as [|[k' v] m IH]; intros k H; simpl in *; [destruct H|].
  destruct (last_key x m) eqn:E; [discriminate|].
  destruct H as [[= -> ->]|H]; [rewrite String.eqb_refl; discriminate|].
  exfalso; exact (IH k H eq_refl).
Qed.

Lemma field_eqb_eq : forall a b, field_eqb a b = true -> a = b.
Proof. intros [] []; simpl; congruence. Qed.

Lemma dict_get_in : forall m k v, dict_get k m = Some v -> In (k, v) m.
Proof.
  induction m as [|[k' v'] m IH]; intros k v H; simpl in *; [discriminate|].
  destruct (field_eqb k k') eqn:E; [apply field_eqb_eq in E; subst; injection H as ->; left; reflexivity|].
  right; apply IH; exact H.
Qed.

Lemma detect_year_head : forall cols c,
  dict_get Year (detect_columns cols) = Some c ->
  exists m', detect_columns cols = (Year, c) :: m' /\ forall v, ~ In (Year, v) m'.
Proof.
  intros cols c H; rewrite detect_columns_shape in H |- *; cbv beta zeta in H |- *.
  destruct (spec_first_match Year cols), (spec_first_match Quarter cols),
    (spec_first_match Department cols), (spec_first_match Patients cols);
    simpl in H |- *; try discriminate; injection H as ->;
    eexists; (split; [reflexivity|]); intros v Hv; simpl in Hv;
    repeat (destruct Hv as [Hv|Hv]; [discriminate|]); exact Hv.
Qed.

(** When [detect_columns] gives Year's column to a later field as well (as
    for a raw column ["Patient Year"], matched by "year" and by "patient"),
    the rename dict keeps only the later field for that column, so, unless
    a raw column is literally named ["Year"], no column is labelled
    ["Year"] after [df.rename] and the Year conversion is skipped. *)
Theorem rename_shared_column_drops_year : forall cols c f,
  dict_get Year (detect_columns cols) = Some c ->
  dict_get f (detect_columns cols) = Some c -> f <> Year ->
  ~ In "Year" cols ->
  ~ In "Year" (renamed_columns (rename_dict (detect_columns cols)) cols).
Proof.
  intros cols c f Hy Hf Hne Hnot Hin.
  unfold renamed_columns in Hin; apply in_map_iff in Hin as (x & Hx & Hxin).
  unfold rename_dict in Hx; rewrite rename_fold in Hx.
  destruct (last_key x (detect_columns cols)) as [k|] eqn:Ek.
  - assert (k = Year) as -> by (destruct k; simpl in Hx; congruence).
    destruct (detect_year_head cols c Hy) as (m' & Em & Hm').
    rewrite Em in Ek, Hf; simpl in Ek, Hf.
    destruct (last_key x m') as [k'|] eqn:Ek'.
    + injection Ek as ->; apply (Hm' x), last_key_in; exact Ek'.
    + destruct (String.eqb_spec x c) as [->|]; [|discriminate].
      destruct f; try (exfalso; apply Hne; reflexivity); simpl in Hf;
        apply dict_get_in in Hf; exact (in_last_key _ _ _ Hf Ek').
  - simpl in Hx; subst x; contradiction.
Qed.

Lemma rename_shared_column_drops_year_witness :
  dict_get Year (detect_columns ["Patient Year"; "Quarter"; "Dept"]) = Some "Patient Year" /\
  ~ In "Year" (renamed_columns (rename_dict (detect_columns ["Patient Year"; "Quarter"; "Dept"]))
                 ["Patient Year"; "Quarter"; "Dept"]).
Proof.
  split; [reflexivity|].
  apply (rename_shared_column_drops_year _ "Patient Year" Patients);
    [reflexivity | reflexivity | discriminate |].
  simpl; intros [H|[H|[H|[]]]]; discriminate.
Defined.

(** ** Value normaliser *)

Lemma spec_map_accept : forall p q,
  quarter_of_string (spec_map p) = Some q <-> In p (quarter_spellings q).
Proof.
  intros p q; split.
  - intros H; unfold spec_map in H.
    destruct (existsb (String.eqb p) ["1"; "1ST"; "FIRST"]) eqn:E1;
      [vm_compute in H; injection H as <-;
       apply existsb_exists in E1 as (x & Hx & Ex); apply String.eqb_eq in Ex; subst x;
       simpl in Hx |- *; tauto|].
    destruct (existsb (String.eqb p) ["2"; "2ND"; "SECOND"]) eqn:E2;
      [vm_compute in H; injection H as <-;
       apply existsb_exists in E2 as (x & Hx & Ex); apply String.eqb_eq in Ex; subst x;
       simpl in Hx |- *; tauto|].
    destruct (existsb (String.eqb p) ["3"; "3RD"; "THIRD"]) eqn:E3;
      [vm_compute in H; injection H as <-;
       apply existsb_exists in E3 as (x & Hx & Ex); apply String.eqb_eq in Ex; subst x;
       simpl in Hx |- *; tauto|].
    destruct (existsb (String.eqb p) ["4"; "4TH"; "FOURTH"]) eqn:E4;
      [vm_compute in H; injection H as <-;
       apply existsb_exists in E4 as (x & Hx & Ex); apply String.eqb_eq in Ex; subst x;
       simpl in Hx |- *; tauto|].
    apply quarter_of_string_label in H; subst p; destruct q; simpl; tauto.
  - intros H; destruct q; simpl in H;
      repeat (destruct H as [<-|H]; [vm_compute; reflexivity|]); destruct H.
Qed.

Lemma prepared_accept : forall s q,
  quarter_of_string (canon_quarter s) = Some q <-> In (prepared_quarter s) (quarter_spellings q).
Proof.
  intros s q; rewrite canon_quarter_eq_amended; unfold amended_canon, prepared_quarter, quarter_prep.
  apply spec_map_accept.
Qed.

(** A quarter cell is kept, as [q], exactly when its text, upper-cased, with
    ["QUARTER"] replaced by ["Q"], spaces deleted, stripped and upper-cased
    again, is one of the four spellings of [q]: ["1"], ["1ST"], ["FIRST"],
    ["Q1"] for Q1 and likewise for Q2..Q4.  The [startswith('Q')] branch of
    [standardize_quarter] returns [q] unchanged, so a label such as ["Q5"]
    or ["Q01"] is dropped by the filter. *)
Theorem quarter_accepted_spellings : forall s q,
  quarter_of_string (canon_quarter s) = Some q <-> In (prepared_quarter s) (quarter_spellings q).
Proof. exact prepared_accept. Qed.

(** [preprocess_data] stops with "No valid patient numbers found after
    conversion!" exactly when no row's count parses (so in particular on an
    empty table), whatever the quarters; otherwise it returns a table. *)
Theorem preprocess_fails_iff : forall rows,
  (exists msg, preprocess rows = Failed msg) <->
  (forall r, In r rows -> coerce_count (count_dtype rows) (f_count r) = None).
Proof.
  intros rows; rewrite preprocess_rowwise; split.
  - intros (msg & H) r Hr.
    destruct (forallb (count_fails rows) rows) eqn:E; [|discriminate].
    rewrite forallb_forall in E; specialize (E r Hr); unfold count_fails in E.
    destruct (coerce_count _ _); [discriminate | reflexivity].
  - intros H; replace (forallb (count_fails rows) rows) with true; [eexists; reflexivity|].
    symmetry; apply forallb_forall; intros r Hr; unfold count_fails; rewrite (H r Hr); reflexivity.
Qed.

(** The table [preprocess_data] returns holds exactly the rows built from
    an input row whose count parses and whose quarter text is a spelling of
    a quarter: the Year is the input cell as text and the Department the
    input cell as text, stripped; no other condition drops a row. *)
Theorem preprocess_output_iff : forall rows out,
  preprocess rows = Processed out ->
  forall n, In n out <->
    exists r, In r rows /\
      coerce_count (count_dtype rows) (f_count r) = Some (f_count n) /\
      In (prepared_quarter (astype_str (quarter_dtype rows) (f_quarter r)))
         (quarter_spellings (f_quarter n)) /\
      f_year n = astype_str (dtype_of (map f_year rows)) (f_year r) /\
      f_dept n = Py.strip (astype_str (dtype_of (map f_dept rows)) (f_dept r)).
Proof.
  intros rows out H n; apply preprocess_processed in H; subst out.
  rewrite In_filter_map; unfold normalize_row, column_dtypes, count_dtype, quarter_dtype;
    cbv beta iota zeta.
  split.
  - intros (r & Hr & E); exists r; split; [exact Hr|].
    destruct (coerce_count _ (f_count r)) as [c|]; [|discriminate].
    destruct (quarter_of_string _) as [q|] eqn:Eq; [|discriminate].
    injection E as <-; cbn [f_year f_quarter f_dept f_count].
    apply prepared_accept in Eq; auto.
  - intros (r & Hr & Ec & Eq & Ey & Ed); exists r; split; [exact Hr|].
    rewrite Ec; apply prepared_accept in Eq; rewrite Eq.
    destruct n as [y q d c]; cbn [f_year f_quarter f_dept f_count] in *; subst; reflexivity.
Qed.

Lemma preprocess_output_iff_witness :
  preprocess [mkrow (CInt 2021) (CStr "quarter 3") (CStr " ER ") (CStr "1 200");
              mkrow (CInt 2022) (CStr "Q5") (CStr "ICU") (CStr "7")]
    = Processed [mkrow "2021" Q3 "ER" 1200%Z] /\
  In (mkrow "2021" Q3 "ER" 1200%Z) [mkrow "2021" Q3 "ER" 1200%Z].
Proof.
  assert (H : preprocess [mkrow (CInt 2021) (CStr "quarter 3") (CStr " ER ") (CStr "1 200");
              mkrow (CInt 2022) (CStr "Q5") (CStr "ICU") (CStr "7")]
    = Processed [mkrow "2021" Q3 "ER" 1200%Z]) by (vm_compute; reflexivity).
  split; [exact H|].
  apply (proj2 (preprocess_output_iff _ _ H (mkrow "2021" Q3 "ER" 1200%Z))).
  exists (mkrow (CInt 2021) (CStr "quarter 3") (CStr " ER ") (CStr "1 200")).
  split; [left; reflexivity|].
  split; [vm_compute; reflexivity|].
  split; [vm_compute; right; right; right; left; reflexivity|].
  split; vm_compute; reflexivity.
Defined.

Lemma num_char_fixed : forall c, num_char c = true ->
  Py.upper_char c = c /\ Ascii.eqb c " " = false /\ Py.is_space c = false /\
  Ascii.eqb "Q" c = false.
Proof.
  intros [[] [] [] [] [] [] [] []]; vm_compute;
    first [intros H; discriminate H | intros _; repeat split].
Qed.

Lemma all_chars_app : forall p a b, all_chars p (a ++ b) = all_chars p a && all_chars p b.
Proof.
  intros p a b; induction a as [|c a IH]; simpl; [reflexivity|].
  rewrite IH, andb_assoc; reflexivity.
Qed.

Lemma str_app_nil : forall s, (s ++ "")%string = s.
Proof. induction s as [|c s IH]; simpl; [reflexivity | rewrite IH; reflexivity]. Qed.

Lemma str_app_assoc : forall a b c, ((a ++ b) ++ c)%string = (a ++ (b ++ c))%string.
Proof. induction a as [|x a IH]; intros b c; simpl; [reflexivity | rewrite IH; reflexivity]. Qed.

Lemma rev_string_app : forall a b,
  Py.rev_string (a ++ b) = (Py.rev_string b ++ Py.rev_string a)%string.
Proof.
  induction a as [|c a IH]; intros b; simpl.
  - rewrite str_app_nil; reflexivity.
  - rewrite IH, str_app_assoc; reflexivity.
Qed.

Lemma rev_string_involutive : forall s, Py.rev_string (Py.rev_string s) = s.
Proof.
  induction s as [|c s IH]; simpl; [reflexivity|].
  rewrite rev_string_app, IH; reflexivity.
Qed.

Lemma all_chars_rev : forall p s, all_chars p (Py.rev_string s) = all_chars p s.
Proof.
  intros p s; induction s as [|c s IH]; simpl; [reflexivity|].
  rewrite all_chars_app, IH; simpl; rewrite andb_true_r, andb_comm; reflexivity.
Qed.

Lemma num_text_prepared : forall s, all_chars num_char s = true -> prepared_quarter s = s.
Proof.
  assert (Hup : forall s, all_chars num_char s = true -> Py.upper s = s).
  { unfold Py.upper; induction s as [|c s IH]; cbn [all_chars Py.map_chars]; intros H;
      [reflexivity|].
    apply andb_true_iff in H as [Hc Hs].
    rewrite (proj1 (num_char_fixed c Hc)), IH by exact Hs; reflexivity. }
  assert (Hrep : forall s, all_chars num_char s = true -> Py.replace_aux "QUARTER" "Q" 0 s = s).
  { induction s as [|c s IH]; cbn [all_chars Py.replace_aux Py.startswith]; intros H;
      [reflexivity|].
    apply andb_true_iff in H as [Hc Hs].
    destruct (num_char_fixed c Hc) as (_ & _ & _ & HQ); rewrite HQ; cbn [andb].
    rewrite IH by exact Hs; reflexivity. }
  assert (Hrm : forall s, all_chars num_char s = true -> Py.remove_char " " s = s).
  { induction s as [|c s IH]; cbn [all_chars Py.remove_char]; intros H; [reflexivity|].
    apply andb_true_iff in H as [Hc Hs].
    destruct (num_char_fixed c Hc) as (_ & Hsp & _); rewrite Hsp, IH by exact Hs; reflexivity. }
  assert (Hls : forall s, all_chars num_char s = true -> Py.lstrip s = s).
  { intros [|c s] H; cbn [all_chars Py.lstrip] in *; [reflexivity|].
    apply andb_true_iff in H as [Hc _].
    destruct (num_char_fixed c Hc) as (_ & _ & Hsp & _); rewrite Hsp; reflexivity. }
  intros s H; unfold prepared_quarter, quarter_prep, Py.replace, Py.strip.
  rewrite (Hup s H), (Hrep s H), (Hrm s H), (Hls s H), (Hls (Py.rev_string s)),
    rev_string_involutive, (Hup s H) by (rewrite all_chars_rev; exact H).
  reflexivity.
Qed.

Lemma str_of_int_num : forall z, all_chars num_char (Py.str_of_int z) = true.
Proof.
  assert (Hu : forall u, all_chars num_char (NilEmpty.string_of_uint u) = true)
    by (induction u; simpl; auto).
  intros z; unfold Py.str_of_int, NilEmpty.string_of_int.
  destruct (Z.to_int z); simpl; [apply Hu | apply Hu].
Qed.

Lemma contains_dot_app : forall x, Py.contains "." (x ++ ".0") = true.
Proof.
  induction x as [|c x IH]; [reflexivity|].
  simpl; rewrite IH, orb_true_r; reflexivity.
Qed.

(** A quarter column holding numbers with a missing cell is read as
    [float64], so [astype(str)] writes ["1.0"], ["2.0"], ... and ["nan"]:
    none of these is a spelling of a quarter, and the quarter filter drops
    every row (the call still reports success, with an empty table). *)
Theorem preprocess_float_quarter_drops_all : forall rows out,
  quarter_dtype rows = Float64 -> preprocess rows = Processed out -> out = [].
Proof.
  intros rows out Hdt H; apply preprocess_processed in H; subst out.
  apply filter_map_nil_iff; intros r Hr.
  unfold normalize_row, column_dtypes; cbv beta iota zeta.
  destruct (coerce_count _ (f_count r)); [|reflexivity].
  unfold quarter_dtype in Hdt; rewrite Hdt.
  destruct (quarter_of_string _) as [q|] eqn:Eq; [|reflexivity].
  exfalso; apply prepared_accept in Eq.
  destruct (f_quarter r) as [k| |s] eqn:Ef; simpl in Eq.
  - rewrite num_text_prepared in Eq
      by (rewrite all_chars_app, str_of_int_num; reflexivity).
    pose proof (contains_dot_app (Py.str_of_int k)) as Hd.
    destruct q; simpl in Eq; repeat (destruct Eq as [Eq|Eq]; [rewrite <- Eq in Hd; discriminate Hd|]);
      destruct Eq.
  - destruct q; vm_compute in Eq; repeat (destruct Eq as [Eq|Eq]; [discriminate Eq|]); destruct Eq.
  - unfold dtype_of in Hdt.
    rewrite (proj2 (existsb_exists is_str _) (ex_intro _ (CStr s)
      (conj (eq_ind _ (fun c => In c _) (in_map f_quarter rows r Hr) _ Ef) eq_refl))) in Hdt.
    discriminate.
Qed.

Lemma preprocess_float_quarter_drops_all_witness :
  quarter_dtype [mkrow (CStr "2021") (CInt 1) (CStr "ER") (CStr "10");
                 mkrow (CStr "2021") CNaN (CStr "ER") (CStr "5")] = Float64 /\
  preprocess [mkrow (CStr "2021") (CInt 1) (CStr "ER") (CStr "10");
              mkrow (CStr "2021") CNaN (CStr "ER") (CStr "5")] = Processed [].
Proof.
  assert (Hdt : quarter_dtype [mkrow (CStr "2021") (CInt 1) (CStr "ER") (CStr "10");
                 mkrow (CStr "2021") CNaN (CStr "ER") (CStr "5")] = Float64)
    by reflexivity.
  split; [exact Hdt|].
  destruct (preprocess [mkrow (CStr "2021") (CInt 1) (CStr "ER") (CStr "10");
              mkrow (CStr "2021") CNaN (CStr "ER") (CStr "5")]) as [msg|out] eqn:E.
  - vm_compute in E; discriminate E.
  - rewrite (preprocess_float_quarter_drops_all _ out Hdt E); reflexivity.
Defined.

Lemma lstrip_hd : forall s, hd_ok (Py.lstrip s) = true.
Proof.
  induction s as [|c s IH]; simpl; [reflexivity|].
  destruct (Py.is_space c) eqn:E; [exact IH | simpl; rewrite E; reflexivity].
Qed.

Lemma lstrip_fix : forall s, hd_ok s = true -> Py.lstrip s = s.
Proof.
  intros [|c s] H; simpl in *; [reflexivity|].
  apply negb_true_iff in H; rewrite H; reflexivity.
Qed.

Lemma lstrip_last : forall s,
  hd_ok (Py.rev_string s) = true -> hd_ok (Py.rev_string (Py.lstrip s)) = true.
Proof.
  induction s as [|c s IH]; simpl; intros H; [reflexivity|].
  destruct (Py.is_space c) eqn:E; [|simpl; exact H].
  apply IH; destruct (Py.rev_string s) as [|d t]; simpl in H |- *.
  - rewrite E in H; discriminate.
  - exact H.
Qed.

Lemma strip_idem : forall s, Py.strip (Py.strip s) = Py.strip s.
Proof.
  intros s; unfold Py.strip.
  set (u := Py.lstrip (Py.rev_string (Py.lstrip s))).
  assert (Hu : hd_ok (Py.rev_string u) = true).
  { apply lstrip_last; rewrite rev_string_involutive; apply lstrip_hd. }
  rewrite (lstrip_fix _ Hu), rev_string_involutive, (lstrip_fix u (lstrip_hd _)).
  reflexivity.
Qed.

(** Every Department of the returned table is already stripped: it carries
    no leading or trailing whitespace, so departments that differ only by
    surrounding whitespace are merged. *)
Theorem preprocess_departments_stripped : forall rows out n,
  preprocess rows = Processed out -> In n out -> Py.strip (f_dept n) = f_dept n.
Proof.
  intros rows out n H Hn; apply preprocess_processed in H; subst out.
  apply In_filter_map in Hn as (r & _ & E).
  unfold normalize_row, column_dtypes in E; cbv beta iota zeta in E.
  destruct (coerce_count _ _); [|discriminate].
  destruct (quarter_of_string _); [|discriminate].
  injection E as <-; apply strip_idem.
Qed.

Lemma preprocess_departments_stripped_witness :
  preprocess [mkrow (CStr "2021") (CStr "Q1") (CStr " ER ") (CStr "10")]
    = Processed [mkrow "2021" Q1 "ER" 10%Z] /\ Py.strip "ER" = "ER".
Proof.
  assert (H : preprocess [mkrow (CStr "2021") (CStr "Q1") (CStr " ER ") (CStr "10")]
    = Processed [mkrow "2021" Q1 "ER" 10%Z]) by (vm_compute; reflexivity).
  split; [exact H|].
  exact (preprocess_departments_stripped _ _ (mkrow "2021" Q1 "ER" 10%Z) H (or_introl eq_refl)).
Defined.

(** ** Main panel *)

Lemma str_ltb_asym : forall a b, Py.str_ltb a b = true -> Py.str_ltb b a = false.
Proof.
  induction a as [|x a IH]; intros [|y b] H; simpl in *; try reflexivity; try discriminate.
  apply orb_true_iff in H as [H|H].
  - apply Nat.ltb_lt in H.
    assert (Hne : Ascii.eqb y x = false).
    { apply Ascii.eqb_neq; intros ->; lia. }
    rewrite Hne, orb_false_r; apply Nat.ltb_ge; lia.
  - apply andb_true_iff in H as [Ex H]; apply Ascii.eqb_eq in Ex; subst y.
    rewrite Nat.ltb_irrefl, Ascii.eqb_refl, (IH b H); reflexivity.
Qed.

Lemma str_leb_total : forall a b, str_leb a b = false -> str_leb b a = true.
Proof.
  intros a b H; unfold str_leb in *; apply negb_false_iff in H.
  rewrite (str_ltb_asym _ _ H); reflexivity.
Qed.

Lemma quarter_eqb_eq : forall a b, quarter_eqb a b = true -> a = b.
Proof. intros [] [] H; try reflexivity; discriminate H. Qed.

Lemma chart_in : forall sel rows a,
  In a (chart_data sel rows) <->
  exists y q, In y (map f_year (department_df sel rows)) /\
              a = mkagg y q (group_sum y q (department_df sel rows)).
Proof.
  intros sel rows a; unfold chart_data, sort_values, groupby_sum.
  destruct (groupby_years_spec (department_df sel rows)) as [_ Hin].
  split.
  - intros H; apply (Permutation_in _ (isort_perm key_leb _)) in H.
    apply in_flat_map in H as (y & Hy & Ha); apply in_map_iff in Ha as (q & <- & _).
    exists y, q; split; [apply Hin; exact Hy | reflexivity].
  - intros (y & q & Hy & ->); apply (Permutation_in _ (Permutation_sym (isort_perm key_leb _))).
    apply in_flat_map; exists y; split; [apply Hin; exact Hy|].
    apply in_map_iff; exists q; split; [reflexivity|].
    destruct q; simpl; auto.
Qed.

(** The department choices, [sorted(df['Department'].unique())], are
    distinct, in ascending string order, and exactly the departments of the
    table; for each choice the filtered table and the chart series are non
    empty, so the "No data found for department" and "No data available
    for ... after processing" warnings are never shown for a department
    picked from the list. *)
Theorem departments_selectable : forall rows,
  NoDup (departments rows) /\
  Sorted (fun a b => str_leb a b = true) (departments rows) /\
  (forall d, In d (departments rows) <-> In d (map f_dept rows)) /\
  (forall d, In d (departments rows) ->
     department_df d rows <> [] /\ chart_data d rows <> []).
Proof.
  intros rows; unfold departments.
  assert (Hin : forall d, In d (isort str_leb (nodup string_dec (map f_dept rows)))
                          <-> In d (map f_dept rows)).
  { intros d; split; intros H.
    - apply (Permutation_in _ (isort_perm str_leb _)), nodup_In in H; exact H.
    - apply (Permutation_in _ (Permutation_sym (isort_perm str_leb _))), nodup_In; exact H. }
  split; [|split; [|split]].
  - apply (Permutation_NoDup (Permutation_sym (isort_perm str_leb _))), NoDup_nodup.
  - apply isort_sorted; [intros a b H; exact H | exact str_leb_total].
  - exact Hin.
  - intros d Hd; apply Hin, in_map_iff in Hd as (r & Er & Hr).
    assert (Hdf : In r (department_df d rows))
      by (apply filter_In; split; [exact Hr | apply String.eqb_eq; exact Er]).
    split; [intros E; rewrite E in Hdf; destruct Hdf|].
    intros E.
    assert (Ha : In (mkagg (f_year r) Q1 (group_sum (f_year r) Q1 (department_df d rows)))
                    (chart_data d rows)).
    { apply chart_in; exists (f_year r), Q1; split; [apply in_map; exact Hdf | reflexivity]. }
    rewrite E in Ha; destruct Ha.
Qed.

Lemma length_groups : forall (g : string -> quarter -> agg_row) ys,
  length (flat_map (fun y => map (g y) valid_quarters) ys) = (4 * length ys)%nat.
Proof.
  intros g ys; induction ys as [|y ys IH]; [reflexivity|].
  cbn [flat_map]; rewrite length_app, IH; simpl; lia.
Qed.

Lemma nodup_same_length : forall (l1 l2 : list string),
  (forall x, In x l1 <-> In x l2) ->
  length (nodup string_dec l1) = length (nodup string_dec l2).
Proof.
  intros l1 l2 H.
  assert (Hi : forall a b : list string, (forall x, In x a -> In x b) ->
               (length (nodup string_dec a) <= length (nodup string_dec b))%nat).
  { intros a b Hab; apply NoDup_incl_length; [apply NoDup_nodup|].
    intros x Hx; apply nodup_In, Hab, (nodup_In string_dec); exact Hx. }
  apply Nat.le_antisymm; apply Hi; intros x; apply H.
Qed.

Lemma pivot_years : forall sel rows y,
  In y (map a_year (chart_data sel rows)) <-> In y (map f_year (department_df sel rows)).
Proof.
  intros sel rows y; split.
  - intros H; apply in_map_iff in H as (a & <- & Ha).
    apply chart_in in Ha as (y' & q & Hy & ->); exact Hy.
  - intros H; apply in_map_iff.
    exists (mkagg y Q1 (group_sum y Q1 (department_df sel rows))); split; [reflexivity|].
    apply chart_in; exists y, Q1; split; [exact H | reflexivity].
Qed.

(** The series has four entries per Year of the department (one per
    quarter), so its length is four times the "Time Period" metric
    [department_df['Year'].nunique()], and the pivoted table has one row
    per such Year. *)
Theorem chart_data_length : forall sel rows,
  length (chart_data sel rows) = (4 * nunique_years (department_df sel rows))%nat /\
  length (pivot (chart_data sel rows)) = nunique_years (department_df sel rows).
Proof.
  intros sel rows; split.
  - unfold chart_data, sort_values; rewrite (Permutation_length (isort_perm key_leb _)).
    unfold groupby_sum; rewrite length_groups, (Permutation_length (isort_perm str_leb _)).
    reflexivity.
  - unfold pivot; rewrite length_map, (Permutation_length (isort_perm str_leb _)).
    unfold nunique_years; apply nodup_same_length, pivot_years.
Qed.

(** The pivot of the series, [chart_data.pivot(index='Year',
    columns='Quarter')], has one row per Year of the department, and each
    row has the four quarter columns Q1..Q4, in that order, each holding the
    department's patient total for that (Year, Quarter); no cell is missing,
    so the [fillna(0)] that follows never fills anything. *)
Theorem pivot_complete : forall sel rows y cells,
  In (y, cells) (pivot (chart_data sel rows)) ->
  In y (map f_year (department_df sel rows)) /\
  cells = map (fun q => (q, Some (group_sum y q (department_df sel rows)))) valid_quarters.
Proof.
  intros sel rows y cells H; unfold pivot in H.
  apply in_map_iff in H as (y' & E & Hy').
  injection E as Ey Ec; subst y' cells.
  apply (Permutation_in _ (isort_perm str_leb _)), nodup_In, pivot_years in Hy'.
  split; [exact Hy'|].
  set (D := department_df sel rows) in *.
  assert (Hmem : forall q, In (mkagg y q (group_sum y q D)) (chart_data sel rows))
    by (intros q; apply chart_in; exists y, q; split; [exact Hy' | reflexivity]).
  assert (Hq : forall q, existsb (fun a => quarter_eqb (a_quarter a) q) (chart_data sel rows) = true).
  { intros q; apply existsb_exists; exists (mkagg y q (group_sum y q D)); split; [apply Hmem|].
    destruct q; reflexivity. }
  unfold valid_quarters; cbn [filter]; rewrite !Hq; cbn [map].
  assert (Hf : forall q, option_map a_count
                 (find (fun a => String.eqb (a_year a) y && quarter_eqb (a_quarter a) q)
                       (chart_data sel rows)) = Some (group_sum y q D)).
  { intros q.
    destruct (find _ (chart_data sel rows)) as [a|] eqn:Ef.
    - apply find_some in Ef as [Ha Ep]; apply andb_true_iff in Ep as [Ey Eq].
      apply String.eqb_eq in Ey; apply quarter_eqb_eq in Eq.
      apply chart_in in Ha as (y0 & q0 & _ & ->); cbn in Ey, Eq |- *; subst; reflexivity.
    - exfalso; apply find_none with (x := mkagg y q (group_sum y q D)) in Ef; [|apply Hmem].
      cbn in Ef; rewrite String.eqb_refl in Ef; destruct q; discriminate. }
  rewrite !Hf; reflexivity.
Qed.

Lemma pivot_complete_witness :
  In ("2021", [(Q1, Some 100%Z); (Q2, Some 0%Z); (Q3, Some 0%Z); (Q4, Some 0%Z)])
     (pivot (chart_data "ER" [mkrow "2021" Q1 "ER" 100%Z; mkrow "2022" Q3 "ICU" 7%Z])) /\
  [(Q1, Some 100%Z); (Q2, Some 0%Z); (Q3, Some 0%Z); (Q4, Some 0%Z)] =
  map (fun q => (q, Some (group_sum "2021" q
                            (department_df "ER" [mkrow "2021" Q1 "ER" 100%Z;
                                                 mkrow "2022" Q3 "ICU" 7%Z]))))
      valid_quarters.
Proof.
  assert (H : In ("2021", [(Q1, Some 100%Z); (Q2, Some 0%Z); (Q3, Some 0%Z); (Q4, Some 0%Z)])
     (pivot (chart_data "ER" [mkrow "2021" Q1 "ER" 100%Z; mkrow "2022" Q3 "ICU" 7%Z])))
    by (vm_compute; left; reflexivity).
  split; [exact H|].
  exact (proj2 (pivot_complete _ _ _ _ H)).
Defined.


